(** * verify_flows.py: the reference flow of the NMSlite API, as a trace model

    The script logs in, creates a credential profile, a discovery profile
    and a monitor, updates the credential, deletes the monitor, and sleeps
    two seconds after each of the last three steps.  It talks to an HTTPS
    server that is not part of the script: the server is a parameter of the
    model, and every run is a list of events (texts printed, calls of
    [requests] with their replies, reads of a response body, sleeps)
    together with the way the interpreter stops.  [print] can fail, on a
    text that stdout cannot encode, and so can every step that prints. *)

From Stdlib Require Import ZArith List String Ascii Bool Lia DecimalString.
Import ListNotations.

#[local] Set Warnings "-register-all".

Local Open Scope Z_scope.
Local Open Scope list_scope.
Local Open Scope string_scope.

(** ** Python values and exceptions *)

(** What [resp.json()] can return, and what the script puts in a [json=]
    body.  A float is kept as its [repr]; a dict is its items in insertion
    order, one per key. *)
Inductive pyval : Type :=
| PNone
| PBool (b : bool)
| PInt (z : Z)
| PFloat (repr : string)
| PStr (s : string)
| PList (elems : list pyval)
| PDict (items : list (string * pyval)).

(** Texts of 7-bit characters: every codec of a terminal encodes them. *)
Definition ascii7 (c : ascii) : bool :=
  let (_, _, _, _, _, _, _, b7) := c in negb b7.

Fixpoint is_ascii (s : string) : bool :=
  match s with
  | EmptyString => true
  | String c rest => ascii7 c && is_ascii rest
  end.

(** Why [resp.json()] failed: the message of the decoder.  CPython's
    decoder, the C scanner of [json], writes a fixed phrase and a position
    (Expecting value: line 1 column 1 (char 0)), all in ASCII; the model
    keeps to such messages and carries the proof that the text is ASCII. *)
Record json_failure : Type := mkJsonFailure {
  failure_text : string;
  failure_is_ascii : is_ascii failure_text = true
}.

(** The exceptions the script can meet, all subclasses of [Exception]. *)
Inductive exn : Type :=
| RequestException (msg : string)   (* raised by requests.post/put/delete *)
| JSONDecodeError (why : json_failure) (* raised by resp.json() *)
| KeyError (key : string)           (* d[key] on a dict without key *)
| TypeError (v : pyval)             (* v[key] on a value that is not a dict *)
| UnicodeEncodeError (text : string). (* print(text), stdout cannot encode text *)

(** The exceptions whose message the interpreter writes in ASCII: all but
    those of the transport, whose text comes from the network stack and
    the operating system.  A [KeyError] shows the [repr] of its key. *)
Definition interpreter_made (e : exn) : bool :=
  match e with
  | RequestException _ => false
  | KeyError key => is_ascii key
  | JSONDecodeError _ | TypeError _ | UnicodeEncodeError _ => true
  end.

Inductive result (A : Type) : Type :=
| Ok (a : A)
| Raise (e : exn).
Arguments Ok {A} a.
Arguments Raise {A} e.

Fixpoint dict_get (items : list (string * pyval)) (key : string) : option pyval :=
  match items with
  | [] => None
  | (k, v) :: rest => if String.eqb k key then Some v else dict_get rest key
  end.

(** [v[key]] for a string key. *)
Definition getitem (v : pyval) (key : string) : result pyval :=
  match v with
  | PDict items =>
      match dict_get items key with
      | Some x => Ok x
      | None => Raise (KeyError key)
      end
  | _ => Raise (TypeError v)
  end.


(** What the script takes from the interpreter and from [requests]:
    - the builtin [str], which f-strings apply to a value or to a caught
      exception; the script only interpolates its result;
    - which texts the codec of stdout encodes: [print] raises
      [UnicodeEncodeError] on the others (a lone surrogate under UTF-8,
      any character above 127 under ASCII);
    - how [requests] prepares a URL before it sends anything (it removes
      dot segments and quotes characters), so that the URL a call is given
      and the URL asked of the server can differ.
    The laws say that a codec encodes ASCII text whatever follows it, and
    that the messages the interpreter writes are text it can print. *)
Class PyRuntime : Type := {
  py_str : pyval -> string;
  exc_str : exn -> string;
  stdout_encodes : string -> bool;
  prepare_url : string -> string;
  encodes_after_ascii :
    forall prefix rest,
      is_ascii prefix = true ->
      stdout_encodes (prefix ++ rest) = stdout_encodes rest;
  encodes_empty : stdout_encodes "" = true;
  exc_str_encodes :
    forall e, interpreter_made e = true -> stdout_encodes (exc_str e) = true
}.

(** ** Requests, responses, the server *)

Inductive http_method : Type := POST | PUT | DELETE.

(** The arguments of one call of [requests.post], [requests.put] or
    [requests.delete]; a keyword that the call does not pass is [None]. *)
Record request : Type := mkRequest {
  method : http_method;
  url : string;
  json : option pyval;
  headers : option (list (string * string));
  verify : bool
}.

(** What [resp.json()] gives: a value, or the failure of the decoder. *)
Inductive json_outcome : Type :=
| Parsed (v : pyval)
| NotJson (why : json_failure).

(** What the script can observe of a response: [resp.status_code],
    [resp.text] and the outcome of [resp.json()]. *)
Record response : Type := mkResponse {
  status_code : Z;
  text : string;
  json_body : json_outcome
}.

(** A server answers a request, given the requests it received before, with
    a response or with a failure of the transport (an exception in the
    client).  It is given the requests as [requests] sends them, with the
    URL prepared.  The replies of any one run, whatever produced them, are
    those of such a function, so a statement about all servers is one
    about all runs. *)
Definition server : Type := list request -> request -> result response.

(** ** Events and the script monad *)

(** What a run does, in order.  [Print] is a call of [print] that wrote its
    text; [Http] is a call of [requests] with the arguments of the call
    and what came back. *)
Inductive event : Type :=
| DisableWarnings (category : string)
| Print (line : string)
| Http (req : request) (reply : result response)
| ReadJson
| ReadText
| Sleep (seconds : Z).

Definition trace : Type := list event.

Fixpoint requests_of (tr : trace) : list request :=
  match tr with
  | [] => []
  | Http req _ :: rest => req :: requests_of rest
  | _ :: rest => requests_of rest
  end.

(** How a computation ends: with a value, with an exception that
    propagates, or with [SystemExit] (which [except Exception] does not
    catch). *)
Inductive outcome (A : Type) : Type :=
| Returned (a : A)
| Raised (e : exn)
| SystemExit (code : Z).
Arguments Returned {A} a.
Arguments Raised {A} e.
Arguments SystemExit {A} code.

Definition M (A : Type) : Type := trace -> outcome A * trace.

Definition ret {A} (a : A) : M A := fun tr => (Returned a, tr).

Definition bind {A B} (m : M A) (k : A -> M B) : M B :=
  fun tr =>
    match m tr with
    | (Returned a, tr') => k a tr'
    | (Raised e, tr') => (Raised e, tr')
    | (SystemExit c, tr') => (SystemExit c, tr')
    end.

Declare Scope script_scope.
Delimit Scope script_scope with script.
Notation "x <- c1 ;; c2" := (bind c1 (fun x => c2))
  (at level 100, c1 at next level, right associativity) : script_scope.
Notation "c1 ;; c2" := (bind c1 (fun _ => c2))
  (at level 100, right associativity) : script_scope.
Local Open Scope script_scope.

Definition emit (e : event) : M unit := fun tr => (Returned tt, (tr ++ [e])%list).

Definition raise {A} (e : exn) : M A := fun tr => (Raised e, tr).

Definition lift {A} (r : result A) : M A :=
  match r with
  | Ok a => ret a
  | Raise e => raise e
  end.

(** [sys.exit(code)] *)
Definition sys_exit {A} (code : Z) : M A := fun tr => (SystemExit code, tr).

(** [try: body / except Exception as e: handler(e)] *)
Definition try_except {A} (body : M A) (handler : exn -> M A) : M A :=
  fun tr =>
    match body tr with
    | (Raised e, tr') => handler e tr'
    | other => other
    end.

Definition when (c : bool) (m : M unit) : M unit := if c then m else ret tt.

Definition time_sleep (seconds : Z) : M unit := emit (Sleep seconds).

Definition json_result (j : json_outcome) : result pyval :=
  match j with
  | Parsed v => Ok v
  | NotJson why => Raise (JSONDecodeError why)
  end.

(** [resp.json()] and [resp.text] *)
Definition resp_json (resp : response) : M pyval :=
  emit ReadJson ;; lift (json_result (json_body resp)).

Definition resp_text (resp : response) : M string :=
  emit ReadText ;; ret (text resp).

Section Script.

Context {RT : PyRuntime}.
Variable srv : server.

(** [print(line)]: the text is written whole or, when the codec of stdout
    cannot encode it, not at all. *)
Definition print (line : string) : M unit :=
  if stdout_encodes line then emit (Print line)
  else raise (UnicodeEncodeError line).

(** The request [requests] sends for a call: the same, with the URL
    prepared. *)
Definition sent (req : request) : request :=
  mkRequest (method req) (prepare_url (url req)) (json req) (headers req)
            (verify req).

(** One call into [requests]: the server sees the request sent for it
    after those already sent in this run. *)
Definition requests_request (req : request) : M response :=
  fun tr =>
    let reply := srv (map sent (requests_of tr)) (sent req) in
    let tr' := (tr ++ [Http req reply])%list in
    match reply with
    | Ok resp => (Returned resp, tr')
    | Raise e => (Raised e, tr')
    end.

Definition requests_post url json headers verify : M response :=
  requests_request (mkRequest POST url json headers verify).

Definition requests_put url json headers verify : M response :=
  requests_request (mkRequest PUT url json headers verify).

Definition requests_delete url headers verify : M response :=
  requests_request (mkRequest DELETE url None headers verify).

(** ** The script *)

Definition BASE_URL : string := "https://localhost:8080/api/v1".

Definition log (msg : string) : M unit := print ("[TEST] " ++ msg).

Definition fail {A} (msg : string) : M A :=
  print ("[TEST] FAILED: " ++ msg) ;; sys_exit 1.

Definition login_payload : pyval :=
  PDict [("username", PStr "admin"); ("password", PStr "Admin@123")].

Definition cred_payload : pyval :=
  PDict [("name", PStr "Test WinRM Creds");
         ("description", PStr "Created by test script");
         ("protocol", PStr "winrm");
         ("payload", PDict [("username", PStr "Administrator");
                            ("password", PStr "Password123!")])].

Definition disc_payload (cred_id : pyval) : pyval :=
  PDict [("name", PStr "Test Discovery");
         ("target_value", PStr "192.168.1.10");
         ("credential_profile_id", cred_id);
         ("port", PInt 5985);
         ("auto_run", PBool false)].

Definition mon_payload (cred_id disc_id : pyval) : pyval :=
  PDict [("ip_address", PStr "192.168.1.10");
         ("plugin_id", PStr "windows-winrm");
         ("credential_profile_id", cred_id);
         ("discovery_profile_id", disc_id);
         ("polling_interval_seconds", PInt 30);
         ("status", PStr "active")].

Definition update_cred_payload : pyval :=
  PDict [("name", PStr "Test WinRM Creds Updated");
         ("description", PStr "Updated by test script");
         ("protocol", PStr "winrm");
         ("payload", PDict [("username", PStr "Administrator");
                            ("password", PStr "NewPassword123!")])].

(** Step 1, the [try] block and its handler; the value is [headers]. *)
Definition login : M (list (string * string)) :=
  try_except
    (resp <- requests_post (BASE_URL ++ "/login") (Some login_payload) None false ;;
     when (negb (status_code resp =? 200)%Z)
          (t <- resp_text resp ;; fail ("Login failed: " ++ t)) ;;
     body <- resp_json resp ;;
     token <- lift (getitem body "token") ;;
     let headers := [("Authorization", "Bearer " ++ py_str token)] in
     log "Login successful." ;;
     ret headers)
    (fun e => fail ("Login exception: " ++ exc_str e)).

Definition script : M unit :=
  emit (DisableWarnings "InsecureRequestWarning") ;;
  (* 1. Login *)
  log "Logging in..." ;;
  headers <- login ;;
  (* 2. Create Credential Profile *)
  log "Creating Credential Profile..." ;;
  resp <- requests_post (BASE_URL ++ "/credentials")
                        (Some cred_payload) (Some headers) false ;;
  when (negb (status_code resp =? 201)%Z)
       (t <- resp_text resp ;; fail ("Create Credential failed: " ++ t)) ;;
  body <- resp_json resp ;;
  cred_id <- lift (getitem body "id") ;;
  log ("Credential created: " ++ py_str cred_id) ;;
  (* 3. Create Discovery Profile *)
  log "Creating Discovery Profile..." ;;
  resp <- requests_post (BASE_URL ++ "/discoveries")
                        (Some (disc_payload cred_id)) (Some headers) false ;;
  when (negb (status_code resp =? 201)%Z)
       (t <- resp_text resp ;; fail ("Create Discovery failed: " ++ t)) ;;
  body <- resp_json resp ;;
  disc_id <- lift (getitem body "id") ;;
  log ("Discovery profile created: " ++ py_str disc_id) ;;
  (* 4. Add Monitor *)
  log "Creating Monitor (Triggers: Add Monitor Flow)..." ;;
  resp <- requests_post (BASE_URL ++ "/monitors")
                        (Some (mon_payload cred_id disc_id)) (Some headers) false ;;
  when (negb (status_code resp =? 201)%Z)
       (t <- resp_text resp ;; fail ("Create Monitor failed: " ++ t)) ;;
  body <- resp_json resp ;;
  mon_id <- lift (getitem body "id") ;;
  log ("Monitor created: " ++ py_str mon_id) ;;
  (* Wait for scheduler to process *)
  time_sleep 2 ;;
  (* 5. Update Credential *)
  log "Updating Credential (Triggers: Update Credential Flow)..." ;;
  resp <- requests_put (BASE_URL ++ "/credentials/" ++ py_str cred_id)
                       (Some update_cred_payload) (Some headers) false ;;
  when (negb (status_code resp =? 200)%Z)
       (t <- resp_text resp ;; fail ("Update Credential failed: " ++ t)) ;;
  log "Credential updated." ;;
  (* Wait for scheduler to process *)
  time_sleep 2 ;;
  (* 6. Delete Monitor *)
  log "Deleting Monitor (Triggers: Delete Monitor Flow)..." ;;
  resp <- requests_delete (BASE_URL ++ "/monitors/" ++ py_str mon_id)
                          (Some headers) false ;;
  when (negb (status_code resp =? 204)%Z)
       (t <- resp_text resp ;; fail ("Delete Monitor failed: " ++ t)) ;;
  log "Monitor deleted." ;;
  (* Wait for scheduler to process *)
  time_sleep 2 ;;
  log "All steps completed successfully.".

(** A run of the script: how it ends and what it did. *)
Definition run : outcome unit * trace := script [].

Definition run_outcome : outcome unit := fst run.
Definition run_trace : trace := snd run.

End Script.

(** The exit status of the interpreter: 0 after the last statement, the
    argument of [sys.exit], 1 after an uncaught exception. *)
Definition exit_status (o : outcome unit) : Z :=
  match o with
  | Returned _ => 0
  | Raised _ => 1
  | SystemExit c => c
  end.

(** ** Reading a trace *)

(** The calls of [requests] of a run, each with the arguments of the call
    and the reply, in order. *)
Fixpoint http_log (tr : trace) : list (request * result response) :=
  match tr with
  | [] => []
  | Http req reply :: rest => (req, reply) :: http_log rest
  | _ :: rest => http_log rest
  end.

Definition reply_status (reply : result response) : option Z :=
  match reply with
  | Ok resp => Some (status_code resp)
  | Raise _ => None
  end.

Definition statuses (tr : trace) : list (option Z) :=
  map (fun x => reply_status (snd x)) (http_log tr).

(** [resp.json()[key]]: either step can raise. *)
Definition json_field (key : string) (resp : response) : result pyval :=
  match json_body resp with
  | Parsed body => getitem body key
  | NotJson why => Raise (JSONDecodeError why)
  end.

(** The value of [resp.json()[key]] for a reply, when there is one. *)
Definition returned_field (key : string) (reply : result response) : option pyval :=
  match reply with
  | Ok resp =>
      match json_field key resp with
      | Ok v => Some v
      | Raise _ => None
      end
  | Raise _ => None
  end.

(** The value a request's JSON body gives to [key]. *)
Definition field_of (req : request) (key : string) : option pyval :=
  match json req with
  | Some (PDict items) => dict_get items key
  | _ => None
  end.

(** [id] was returned, with status 201, by a POST to [path] in [log]. *)
Definition created_by (path : string) (log : list (request * result response))
    (id : pyval) : Prop :=
  exists req resp,
    In (req, Ok resp) log /\
    method req = POST /\ url req = BASE_URL ++ path /\
    status_code resp = 201 /\ returned_field "id" (Ok resp) = Some id.

(** The events after the [n]-th request (counting from 0) and its reply. *)
Fixpoint events_after (n : nat) (tr : trace) : trace :=
  match tr with
  | [] => []
  | Http _ _ :: rest =>
      match n with
      | O => rest
      | S n' => events_after n' rest
      end
  | _ :: rest => events_after n rest
  end.

(** The events before the first request of [tr]. *)
Fixpoint until_request (tr : trace) : trace :=
  match tr with
  | [] => []
  | Http _ _ :: _ => []
  | e :: rest => e :: until_request rest
  end.

(** The events between the [n]-th request and the next one, or the end. *)
Definition gap_after (n : nat) (tr : trace) : trace :=
  until_request (events_after n tr).

Fixpoint sleeps (tr : trace) : list Z :=
  match tr with
  | [] => []
  | Sleep s :: rest => s :: sleeps rest
  | _ :: rest => sleeps rest
  end.



(** The statuses the six steps wait for, in order. *)
Definition expected_statuses : list Z := [200; 201; 201; 201; 200; 204].


(** ** A concrete interpreter and concrete servers, to run the model *)

Module CPython.

Definition hex_digit (n : nat) : ascii :=
  nth n (list_ascii_of_string "0123456789abcdef") "0"%char.

Definition double_quote : ascii := "034"%char.
Definition single_quote : ascii := "039"%char.
Definition backslash : ascii := "092"%char.

Fixpoint mentions (c : ascii) (s : string) : bool :=
  match s with
  | EmptyString => false
  | String d rest => Ascii.eqb c d || mentions c rest
  end.

Definition one (c : ascii) : string := String c EmptyString.

Definition escape (quote c : ascii) : string :=
  let n := nat_of_ascii c in
  if Ascii.eqb c quote || Ascii.eqb c backslash then String backslash (one c)
  else if (n =? 9)%nat then String backslash "t"
  else if (n =? 10)%nat then String backslash "n"
  else if (n =? 13)%nat then String backslash "r"
  else if (n <? 32)%nat || ((127 <=? n)%nat && (n <=? 160)%nat) || (n =? 173)%nat
       then String backslash (String "x" (String (hex_digit (n / 16)) (one (hex_digit (n mod 16)))))
  else one c.

Fixpoint escape_all (quote : ascii) (s : string) : string :=
  match s with
  | EmptyString => EmptyString
  | String c rest => escape quote c ++ escape_all quote rest
  end.

(** [repr] of a string of code points below 256. *)
Definition repr_str (s : string) : string :=
  let quote :=
    if mentions single_quote s && negb (mentions double_quote s)
    then double_quote else single_quote in
  String quote (escape_all quote s ++ one quote).

Fixpoint repr (v : pyval) : string :=
  match v with
  | PNone => "None"
  | PBool true => "True"
  | PBool false => "False"
  | PInt z => NilZero.string_of_int (Z.to_int z)
  | PFloat r => r
  | PStr s => repr_str s
  | PList elems => "[" ++ String.concat ", " (map repr elems) ++ "]"
  | PDict items =>
      "{" ++ String.concat ", "
               (map (fun kv => repr_str (fst kv) ++ ": " ++ repr (snd kv)) items)
          ++ "}"
  end.

Definition str (v : pyval) : string :=
  match v with
  | PStr s => s
  | _ => repr v
  end.

Definition type_name (v : pyval) : string :=
  match v with
  | PNone => "NoneType"
  | PBool _ => "bool"
  | PInt _ => "int"
  | PFloat _ => "float"
  | PStr _ => "str"
  | PList _ => "list"
  | PDict _ => "dict"
  end.

Definition decimal (n : nat) : string := NilZero.string_of_uint (Nat.to_uint n).

(** The characters before the first one that ASCII cannot encode, how many
    follow it without a break, and that first character. *)
Fixpoint encodable_prefix (s : string) : nat :=
  match s with
  | EmptyString => O
  | String c rest => if ascii7 c then S (encodable_prefix rest) else O
  end.

Fixpoint unencodable_run (s : string) : nat :=
  match s with
  | EmptyString => O
  | String c rest => if ascii7 c then O else S (unencodable_run rest)
  end.

Fixpoint skip (n : nat) (s : string) : string :=
  match n, s with
  | S n', String _ rest => skip n' rest
  | _, _ => s
  end.

Definition hex_escape (c : ascii) : string :=
  let n := nat_of_ascii c in
  String backslash (String "x" (String (hex_digit (n / 16)) (one (hex_digit (n mod 16))))).

(** [str(e)] of the [UnicodeEncodeError] of the ASCII codec on [text]. *)
Definition encode_error_text (text : string) : string :=
  let start := encodable_prefix text in
  let run := unencodable_run (skip start text) in
  "'ascii' codec can't encode "
  ++ match skip start text, run with
     | String c _, S O =>
         "character '" ++ hex_escape c ++ "' in position " ++ decimal start
     | _, _ =>
         "characters in position " ++ decimal start ++ "-" ++ decimal (start + run - 1)
     end
  ++ ": ordinal not in range(128)".

(** [str(e)], with the wording of CPython 3.11 and later for a failed
    subscript. *)
Definition str_exc (e : exn) : string :=
  match e with
  | RequestException msg => msg
  | JSONDecodeError why => failure_text why
  | KeyError key => repr_str key
  | TypeError (PStr _) => "string indices must be integers, not 'str'"
  | TypeError (PList _) => "list indices must be integers or slices, not str"
  | TypeError v => "'" ++ type_name v ++ "' object is not subscriptable"
  | UnicodeEncodeError text => encode_error_text text
  end.

(** How [requests] (through urllib3) prepares a URL, as far as the paths
    of this script go: dot segments are removed from the path, and an
    empty path becomes "/".  Quoting of characters and the case of scheme
    and host are left as they are, so this is exact on URLs in lower case
    whose characters need no quoting. *)
Fixpoint break (stop : ascii -> bool) (s : string) : string * string :=
  match s with
  | EmptyString => (EmptyString, EmptyString)
  | String c rest =>
      if stop c then (EmptyString, s)
      else let (before, after) := break stop rest in (String c before, after)
  end.

Definition is_slash (c : ascii) : bool := Ascii.eqb c "/".

Definition ends_path (c : ascii) : bool := Ascii.eqb c "?" || Ascii.eqb c "#".

(** [path.split("/")] *)
Fixpoint split_slash (s : string) : list string :=
  match s with
  | EmptyString => [EmptyString]
  | String c rest =>
      if is_slash c then EmptyString :: split_slash rest
      else match split_slash rest with
           | [] => [one c]
           | segment :: segments => String c segment :: segments
           end
  end.

Definition ends_with (suffix s : string) : bool :=
  let n := String.length suffix in
  let m := String.length s in
  Nat.leb n m && String.eqb (substring (m - n) n s) suffix.

(** The loop of urllib3's removal of dot segments; [output] is kept with
    its last segment first. *)
Fixpoint dot_segments (segments output : list string) : list string :=
  match segments with
  | [] => rev output
  | segment :: rest =>
      if String.eqb segment "." then dot_segments rest output
      else if String.eqb segment ".." then dot_segments rest (tl output)
      else dot_segments rest (segment :: output)
  end.

Definition remove_path_dot_segments (path : string) : string :=
  let output := dot_segments (split_slash path) [] in
  let output :=
    if String.prefix "/" path
       && match output with
          | [] => true
          | first :: _ => negb (String.eqb first "")
          end
    then EmptyString :: output else output in
  let output :=
    if ends_with "/." path || ends_with "/.." path
    then (output ++ [EmptyString])%list else output in
  String.concat "/" output.

Definition prepare (u : string) : string :=
  let (scheme, after_scheme) := break is_slash u in
  match after_scheme with
  | String "/" (String "/" after_slashes) =>
      let (authority, after_authority) :=
        break (fun c => is_slash c || ends_path c) after_slashes in
      let (path, tail) := break ends_path after_authority in
      scheme ++ "//" ++ authority
      ++ (if String.eqb path "" then "/" else remove_path_dot_segments path)
      ++ tail
  | _ => u
  end.

(** The laws of the interface, for the ASCII codec. *)
Lemma is_ascii_app (a b : string) :
  is_ascii (a ++ b) = is_ascii a && is_ascii b.
Proof.
  induction a as [| c a IH]; cbn; [reflexivity |].
  rewrite IH. apply andb_assoc.
Qed.

Lemma ascii_prefix_ignored (prefix rest : string) :
  is_ascii prefix = true -> is_ascii (prefix ++ rest) = is_ascii rest.
Proof. intros H. rewrite is_ascii_app, H. reflexivity. Qed.

Lemma hex_digit_ascii (n : nat) : ascii7 (hex_digit n) = true.
Proof. do 16 (destruct n as [| n]; [reflexivity |]). destruct n; reflexivity. Qed.

Lemma hex_escape_ascii (c : ascii) : is_ascii (hex_escape c) = true.
Proof.
  unfold hex_escape. cbn [is_ascii one]. rewrite !hex_digit_ascii. reflexivity.
Qed.

Lemma decimal_ascii (n : nat) : is_ascii (decimal n) = true.
Proof.
  unfold decimal.
  assert (H : forall d, is_ascii (NilEmpty.string_of_uint d) = true)
    by (induction d; cbn; auto).
  destruct (Nat.to_uint n) eqn:E; cbn; try reflexivity; apply H.
Qed.

Lemma escape_ascii (quote c : ascii) :
  ascii7 quote = true -> ascii7 c = true -> is_ascii (escape quote c) = true.
Proof.
  intros Hq Hc. unfold escape.
  repeat match goal with
         | |- context [if ?b then _ else _] => destruct b
         end;
    cbn [is_ascii one]; rewrite ?Hc, ?hex_digit_ascii; reflexivity.
Qed.

Lemma escape_all_ascii (quote : ascii) (s : string) :
  ascii7 quote = true -> is_ascii s = true -> is_ascii (escape_all quote s) = true.
Proof.
  intros Hq. induction s as [| c s IH]; cbn; [reflexivity |].
  intros H. apply andb_prop in H as [Hc Hs].
  rewrite is_ascii_app, escape_ascii, IH; auto.
Qed.

Lemma repr_str_ascii (s : string) : is_ascii s = true -> is_ascii (repr_str s) = true.
Proof.
  intros H. unfold repr_str.
  destruct (mentions single_quote s && negb (mentions double_quote s));
    cbn [is_ascii]; rewrite is_ascii_app, escape_all_ascii; auto.
Qed.

Lemma encode_error_text_ascii (text : string) :
  is_ascii (encode_error_text text) = true.
Proof.
  unfold encode_error_text.
  destruct (skip (encodable_prefix text) text) as [| c rest];
    [| destruct (unencodable_run (String c rest)) as [| [| n]]];
    rewrite !is_ascii_app, ?hex_escape_ascii, ?decimal_ascii; reflexivity.
Qed.

Lemma str_exc_ascii (e : exn) :
  interpreter_made e = true -> is_ascii (str_exc e) = true.
Proof.
  destruct e as [msg | why | key | v | text]; cbn [interpreter_made str_exc].
  - discriminate.
  - intros _. apply failure_is_ascii.
  - apply repr_str_ascii.
  - intros _. destruct v; reflexivity.
  - intros _. apply encode_error_text_ascii.
Qed.

End CPython.

(** CPython with [requests], its stdout under the ASCII codec (as with
    PYTHONIOENCODING=ascii): the texts of the model are made of characters
    below 256, and this is the codec that fails on some of them. *)
Definition cpython : PyRuntime :=
  {| py_str := CPython.str;
     exc_str := CPython.str_exc;
     stdout_encodes := is_ascii;
     prepare_url := CPython.prepare;
     encodes_after_ascii := CPython.ascii_prefix_ignored;
     encodes_empty := eq_refl;
     exc_str_encodes := CPython.str_exc_ascii |}.

(** Modelled from the spec: the HTTP API layer, which is not among the
    sources.  Section 6 gives, per endpoint, the body it accepts and the
    status and body of the answer, 4xx on a failed validation (a body of
    another shape, a reference to a record that does not exist) before
    anything else is done; the token of the login is the authority of all
    later calls.  The model keeps the ids of what was created and numbers
    a record by the count of requests seen before the one that creates
    it. *)
Module Api.

Definition json_object (key value : string) : string :=
  "{" ++ CPython.one CPython.double_quote ++ key ++ CPython.one CPython.double_quote
      ++ ": " ++ value ++ "}".

Definition quoted (s : string) : string :=
  CPython.one CPython.double_quote ++ s ++ CPython.one CPython.double_quote.

(** What [resp.json()] says of a body that is empty or starts with a
    word. *)
Definition no_json : json_outcome :=
  NotJson (mkJsonFailure "Expecting value: line 1 column 1 (char 0)" eq_refl).

Definition token : string := "s3cr3t".

Definition token_response (token : string) : response :=
  mkResponse 200 (json_object "token" (quoted token))
             (Parsed (PDict [("token", PStr token)])).

Definition created_response (id : Z) : response :=
  mkResponse 201 (json_object "id" (CPython.repr (PInt id)))
             (Parsed (PDict [("id", PInt id)])).

Definition updated_response : response :=
  mkResponse 200 (json_object "status" (quoted "updated"))
             (Parsed (PDict [("status", PStr "updated")])).

Definition deleted_response : response := mkResponse 204 "" no_json.

Definition error_response (status : Z) (why : string) : response :=
  mkResponse status (json_object "error" (quoted why))
             (Parsed (PDict [("error", PStr why)])).

Definition bad_request : response := error_response 400 "validation failed".
Definition unauthorized : response := error_response 401 "unauthorized".
Definition not_found : response := error_response 404 "not found".

(** The ids of the records that exist. *)
Record store : Type := mkStore {
  credentials : list Z;
  discoveries : list Z;
  monitors : list Z
}.

Definition empty : store := mkStore [] [] [].

Definition mem (id : Z) (ids : list Z) : bool := existsb (Z.eqb id) ids.

Definition has_fields (req : request) (fields : list string) : bool :=
  match json req with
  | Some (PDict items) =>
      forallb (fun field => existsb (String.eqb field) (map fst items)) fields
  | _ => false
  end.

Definition authorized (req : request) : bool :=
  match headers req with
  | Some fields =>
      existsb (fun field => String.eqb (fst field) "Authorization"
                            && String.eqb (snd field) ("Bearer " ++ token))
              fields
  | None => false
  end.

(** The field [key] of the body names one of [ids]. *)
Definition refers (req : request) (key : string) (ids : list Z) : bool :=
  match field_of req key with
  | Some (PInt id) => mem id ids
  | _ => false
  end.

Definition positive_field (req : request) (key : string) : bool :=
  match field_of req key with
  | Some (PInt n) => (0 <? n)%Z
  | _ => false
  end.

Definition record_url (path : string) (id : Z) : string :=
  BASE_URL ++ path ++ "/" ++ CPython.repr (PInt id).

(** The answer to one request, numbered [n], and the store after it. *)
Definition serve (st : store) (n : Z) (req : request) : response * store :=
  let u := url req in
  if String.eqb u (BASE_URL ++ "/login") then
    match method req with
    | POST =>
        if has_fields req ["username"; "password"]
        then (token_response token, st) else (bad_request, st)
    | _ => (not_found, st)
    end
  else if negb (authorized req) then (unauthorized, st)
  else
    match method req with
    | POST =>
        if String.eqb u (BASE_URL ++ "/credentials") then
          if has_fields req ["name"; "description"; "protocol"; "payload"]
          then (created_response n,
                mkStore (n :: credentials st) (discoveries st) (monitors st))
          else (bad_request, st)
        else if String.eqb u (BASE_URL ++ "/discoveries") then
          if has_fields req ["name"; "target_value"; "credential_profile_id";
                             "port"; "auto_run"]
             && refers req "credential_profile_id" (credentials st)
          then (created_response n,
                mkStore (credentials st) (n :: discoveries st) (monitors st))
          else (bad_request, st)
        else if String.eqb u (BASE_URL ++ "/monitors") then
          if has_fields req ["ip_address"; "plugin_id"; "credential_profile_id";
                             "polling_interval_seconds"; "status"]
             && refers req "credential_profile_id" (credentials st)
             && match field_of req "discovery_profile_id" with
                | None => true
                | Some _ => refers req "discovery_profile_id" (discoveries st)
                end
             && positive_field req "polling_interval_seconds"
          then (created_response n,
                mkStore (credentials st) (discoveries st) (n :: monitors st))
          else (bad_request, st)
        else (not_found, st)
    | PUT =>
        if existsb (fun id => String.eqb u (record_url "/credentials" id))
                   (credentials st)
        then if has_fields req ["name"; "description"; "protocol"; "payload"]
             then (updated_response, st) else (bad_request, st)
        else (not_found, st)
    | DELETE =>
        if existsb (fun id => String.eqb u (record_url "/monitors" id))
                   (monitors st)
        then (deleted_response,
              mkStore (credentials st) (discoveries st)
                      (filter (fun id => negb (String.eqb u (record_url "/monitors" id)))
                              (monitors st)))
        else (not_found, st)
    end.

(** The store after the requests of [history], the first of them numbered
    [n]. *)
Fixpoint replay (st : store) (n : Z) (history : list request) : store :=
  match history with
  | [] => st
  | req :: rest => replay (snd (serve st n req)) (n + 1) rest
  end.

Definition handle : server := fun history req =>
  Ok (fst (serve (replay empty 0 history) (Z.of_nat (List.length history)) req)).

End Api.

(** [base], except that the request number [k] of the run gets [reply]. *)
Definition answering (k : nat) (reply : result response) (base : server) : server :=
  fun history req => if Nat.eqb (List.length history) k then reply else base history req.

Definition server_error : response :=
  mkResponse 500 "Internal Server Error" Api.no_json.

(** The first request of every run. *)
Definition login_request : request :=
  mkRequest POST (BASE_URL ++ "/login") (Some login_payload) None false.

(** The token a login reply carries: status 200 and [resp.json()["token"]]. *)
Definition login_token (reply : result response) : option pyval :=
  match reply_status reply with
  | Some 200 => returned_field "token" reply
  | _ => None
  end.

(** The fields of a request body that refer to another record, each with
    the endpoint that creates what it refers to. *)
Definition reference_fields : list (string * string) :=
  [("credential_profile_id", "/credentials");
   ("discovery_profile_id", "/discoveries")].

(** Method and URL of the login and of the three creations, in the order
    of the script. *)
Definition creation_order : list (http_method * string) :=
  [(POST, BASE_URL ++ "/login");
   (POST, BASE_URL ++ "/credentials");
   (POST, BASE_URL ++ "/discoveries");
   (POST, BASE_URL ++ "/monitors")].

Definition endpoint_of (x : request * result response) : http_method * string :=
  (method (fst x), url (fst x)).

Definition last_event (tr : trace) : option event := hd_error (rev tr).

Definition failed_line (msg : string) : event := Print ("[TEST] FAILED: " ++ msg).

(** The requests that make the server propagate a change to its
    scheduler: the creation of a monitor, the update of a credential, the
    deletion of a monitor. *)
Definition is_propagating (req : request) : bool :=
  match method req with
  | POST => String.eqb (url req) (BASE_URL ++ "/monitors")
  | PUT | DELETE => true
  end.

(** The reference server, except that its answer to request number [k] is
    a 500. *)
Definition failing_at (k : nat) : server := answering k (Ok server_error) Api.handle.

(** The texts a run printed, one for each call of [print] that wrote its
    text, in order: the arguments of [print], not the lines of stdout.  A
    text with a newline in it makes several lines there, which
    [stdout_lines] gives. *)
Fixpoint printed_lines (tr : trace) : list string :=
  match tr with
  | [] => []
  | Print line :: rest => line :: printed_lines rest
  | _ :: rest => printed_lines rest
  end.

Definition newline : ascii := "010"%char.

(** The lines [print] writes for one text: its parts between newlines. *)
Fixpoint split_lines (s : string) : list string :=
  match s with
  | EmptyString => [EmptyString]
  | String c rest =>
      if Ascii.eqb c newline then EmptyString :: split_lines rest
      else match split_lines rest with
           | line :: more => String c line :: more
           | [] => [String c EmptyString]
           end
  end.

(** What a run leaves on stdout, line by line. *)
Definition stdout_lines (tr : trace) : list string :=
  flat_map split_lines (printed_lines tr).

(** A line printed by [fail]. *)
Definition is_failed_line (e : event) : bool :=
  match e with
  | Print line => String.prefix "[TEST] FAILED: " line
  | _ => false
  end.



(** For each request of a trace, the line printed immediately before it,
    if the event before it is a [print]. *)
Fixpoint announced (last : option string) (tr : trace) : list (option string) :=
  match tr with
  | [] => []
  | Print line :: rest => announced (Some line) rest
  | Http _ _ :: rest => last :: announced None rest
  | _ :: rest => announced None rest
  end.

(** The lines with which the script announces its six steps. *)
Definition announcements : list string :=
  ["[TEST] Logging in...";
   "[TEST] Creating Credential Profile...";
   "[TEST] Creating Discovery Profile...";
   "[TEST] Creating Monitor (Triggers: Add Monitor Flow)...";
   "[TEST] Updating Credential (Triggers: Update Credential Flow)...";
   "[TEST] Deleting Monitor (Triggers: Delete Monitor Flow)..."].

(** What [log] prints in a run where every step passes, given the ids the
    three creations returned. *)
Definition transcript {RT : PyRuntime} (cred_id disc_id mon_id : pyval) : list string :=
  ["[TEST] Logging in...";
   "[TEST] Login successful.";
   "[TEST] Creating Credential Profile...";
   "[TEST] Credential created: " ++ py_str cred_id;
   "[TEST] Creating Discovery Profile...";
   "[TEST] Discovery profile created: " ++ py_str disc_id;
   "[TEST] Creating Monitor (Triggers: Add Monitor Flow)...";
   "[TEST] Monitor created: " ++ py_str mon_id;
   "[TEST] Updating Credential (Triggers: Update Credential Flow)...";
   "[TEST] Credential updated.";
   "[TEST] Deleting Monitor (Triggers: Delete Monitor Flow)...";
   "[TEST] Monitor deleted.";
   "[TEST] All steps completed successfully."].

(** The id that the reply to request number [i] returned, [None] (Python's)
    when there is no such reply or no id in it. *)
Definition returned_id (i : nat) (tr : trace) : pyval :=
  match nth_error (http_log tr) i with
  | Some (_, reply) =>
      match returned_field "id" reply with
      | Some id => id
      | None => PNone
      end
  | None => PNone
  end.



(** A text with a character above 127, and so beyond the ASCII codec. *)
Definition cafe : string := "caf" ++ String "233"%char EmptyString.

(** The reference server, except that request number [k] is answered by a
    500 whose text is [cafe]. *)
Definition garbled_at (k : nat) : server :=
  answering k (Ok (mkResponse 500 cafe Api.no_json)) Api.handle.


(** The reference server, except that request number [k] is answered by
    201 and an id that leads, after [prefix], out of the path it is put
    in. *)
Definition dotted_id_at (k : nat) (id : string) : server :=
  answering k (Ok (mkResponse 201 "" (Parsed (PDict [("id", PStr id)]))))
            Api.handle.

(** The reference server, except that request number [k] is answered by
    201 and an id with a newline in it. *)
Definition two_line_id : string := "7" ++ String newline "untagged".

Definition two_line_id_at (k : nat) : server :=
  answering k (Ok (mkResponse 201 "" (Parsed (PDict [("id", PStr two_line_id)]))))
            Api.handle.

(** The requests sent for the calls of a run. *)
Definition sent_requests {RT : PyRuntime} (tr : trace) : list request :=
  map sent (requests_of tr).

(** ** Proof tools: every run, case by case

    A run is decided by what the server answers: per request a failure of
    the transport, a status, whether the body parses and whether it has the
    field read.  [run_cases] unfolds the script against an arbitrary server
    and splits on these, which leaves one goal per path with its trace
    written out. *)

(** A codec encodes ASCII text. *)
Lemma encodes_ascii_text {RT : PyRuntime} (s : string) :
  is_ascii s = true -> stdout_encodes s = true.
Proof.
  intros H.
  assert (E : s ++ "" = s)
    by (clear H; induction s as [| c s IH]; cbn; [| rewrite IH]; reflexivity).
  rewrite <- E, (encodes_after_ascii s "" H). apply encodes_empty.
Qed.

(** What a subscript raises, the interpreter made. *)
Lemma getitem_raises_made (v : pyval) (key : string) (e : exn) :
  getitem v key = Raise e -> is_ascii key = true -> interpreter_made e = true.
Proof.
  intros H Hkey. unfold getitem in H.
  destruct v; try (injection H as <-; reflexivity).
  destruct (dict_get items key); [discriminate |].
  injection H as <-. exact Hkey.
Qed.

(** [log] of an ASCII text prints it. *)
Lemma log_ascii {RT : PyRuntime} (msg : string) :
  is_ascii msg = true -> log msg = emit (Print ("[TEST] " ++ msg)).
Proof.
  intros H. unfold log, print.
  rewrite (encodes_after_ascii "[TEST] " msg eq_refl), (encodes_ascii_text msg H).
  reflexivity.
Qed.

(** String literals are large terms; while a run is split into its paths
    they stay behind local names. *)
Ltac hide_literals :=
  repeat match goal with
         | |- context [String ?c ?s] =>
             let x := fresh "lit" in set (x := String c s)
         end.

Ltac show_literals :=
  repeat match goal with
         | x := _ : string |- _ => subst x
         end.

Ltac unfold_script :=
  unfold run, script, login;
  repeat rewrite log_ascii by reflexivity;
  hide_literals;
  cbv [requests_post requests_put
       requests_delete requests_request resp_json resp_text log fail print
       time_sleep emit ret bind raise lift sys_exit try_except when
       json_result].

(** What [print] does with a text that varies is a case: ASCII before the
    part that varies does not matter, and the message of an exception
    made by the interpreter is printable. *)
Ltac settle_print s :=
  let E := fresh "Henc" in
  destruct (stdout_encodes s) eqn:E;
  repeat rewrite encodes_after_ascii in E by reflexivity;
  try (rewrite exc_str_encodes in E
         by first [ reflexivity
                  | eapply getitem_raises_made; [eassumption | reflexivity] ];
       discriminate E).

Ltac split_on_replies srv :=
  repeat (cbv beta iota zeta delta [app requests_of negb map];
          match goal with
          | |- context [match srv ?h ?r with _ => _ end] =>
              destruct (srv h r) eqn:?
          | |- context [(status_code ?a =? ?c)%Z] =>
              destruct (status_code a =? c)%Z eqn:?
          | |- context [match json_body ?a with _ => _ end] =>
              destruct (json_body a) eqn:?
          | |- context [match getitem ?b ?k with _ => _ end] =>
              destruct (getitem b k) eqn:?
          | |- context [stdout_encodes ?s] => settle_print s
          end).

Ltac status_facts :=
  repeat match goal with
         | H : (_ =? _)%Z = true |- _ => apply Z.eqb_eq in H
         | H : (_ =? _)%Z = false |- _ => apply Z.eqb_neq in H
         end.

Ltac run_cases srv :=
  unfold run_trace, run_outcome, statuses;
  let r := fresh "r" in
  let Hr := fresh "Hr" in
  remember (run srv) as r eqn:Hr; revert Hr;
  unfold_script; split_on_replies srv;
  cbv beta iota zeta delta [app requests_of negb map];
  repeat match goal with
         | H : srv _ _ = _ |- _ => clear H
         end;
  show_literals; status_facts; intros ->;
  cbn [fst snd http_log map reply_status].

(** [returned_field] and [login_token] on a reply whose parts are known. *)
Lemma returned_field_ok (key : string) (resp : response) (body v : pyval) :
  json_body resp = Parsed body -> getitem body key = Ok v ->
  returned_field key (Ok resp) = Some v.
Proof. intros Hb Hv. unfold returned_field, json_field. rewrite Hb, Hv. reflexivity. Qed.

Lemma login_token_ok (resp : response) (body v : pyval) :
  status_code resp = 200 -> json_body resp = Parsed body ->
  getitem body "token" = Ok v ->
  login_token (Ok resp) = Some v.
Proof.
  intros Hs Hb Hv. unfold login_token. cbn [reply_status]. rewrite Hs.
  eapply returned_field_ok; eassumption.
Qed.

Create HintDb flow.
#[local] Hint Resolve returned_field_ok login_token_ok : flow.

(** [created_by], shown by the request number [k] of the log. *)
Ltac created_at k :=
  unfold created_by; do 2 eexists;
  split; [apply nth_error_In with (n := k); reflexivity |];
  repeat split; eauto with flow.

(** A log has at most six entries: the cases of an index into it. *)
Ltac nth_cases i H :=
  destruct i as [|[|[|[|[|[|i]]]]]]; cbn [nth_error] in H;
  try discriminate H; try (destruct i; discriminate H).

Ltac in_log_at k :=
  apply nth_error_In with (n := k); reflexivity.

(** Bring what a path knows of the replies to the hypotheses and the goal. *)
Ltac use_replies :=
  unfold json_field, returned_field, login_token in *; cbn [reply_status] in *;
  repeat match goal with
         | H : json_body ?r = _, H' : context [json_body ?r] |- _ =>
             lazymatch H' with H => fail | _ => rewrite H in H' end
         | H : getitem ?b ?k = _, H' : context [getitem ?b ?k] |- _ =>
             lazymatch H' with H => fail | _ => rewrite H in H' end
         | H : json_body ?r = _ |- context [json_body ?r] => rewrite H
         | H : getitem ?b ?k = _ |- context [getitem ?b ?k] => rewrite H
         end.


(** The last event is a FAILED line. *)
Ltac ends_with_failure :=
  cbn [last_event rev app hd_error]; eexists; reflexivity.











(** A last event that is not a FAILED line. *)
Ltac not_a_failed_line H :=
  cbn [last_event rev app hd_error] in H; unfold failed_line in H;
  first [discriminate H | inversion H as [H']; cbn [append] in H'; discriminate H'].


(** The printed lines are the first [k] of the transcript, or those and a
    FAILED line. *)
Ltac prefix_of_length k :=
  exists k; cbv zeta;
  first [ left; split; [reflexivity | vm_compute; reflexivity]
        | right; eexists; split; [reflexivity | lia] ].


(** ** The model at work *)

Example reference_run_prints :
  printed_lines (@run_trace cpython Api.handle)
  = ["[TEST] Logging in...";
     "[TEST] Login successful.";
     "[TEST] Creating Credential Profile...";
     "[TEST] Credential created: 1";
     "[TEST] Creating Discovery Profile...";
     "[TEST] Discovery profile created: 2";
     "[TEST] Creating Monitor (Triggers: Add Monitor Flow)...";
     "[TEST] Monitor created: 3";
     "[TEST] Updating Credential (Triggers: Update Credential Flow)...";
     "[TEST] Credential updated.";
     "[TEST] Deleting Monitor (Triggers: Delete Monitor Flow)...";
     "[TEST] Monitor deleted.";
     "[TEST] All steps completed successfully."].
Proof. vm_compute. reflexivity. Qed.

Example reference_run_requests :
  map endpoint_of (http_log (@run_trace cpython Api.handle))
  = [(POST, "https://localhost:8080/api/v1/login");
     (POST, "https://localhost:8080/api/v1/credentials");
     (POST, "https://localhost:8080/api/v1/discoveries");
     (POST, "https://localhost:8080/api/v1/monitors");
     (PUT, "https://localhost:8080/api/v1/credentials/1");
     (DELETE, "https://localhost:8080/api/v1/monitors/3")].
Proof. vm_compute. reflexivity. Qed.

(** None of these URLs has a dot segment: they are sent as they are
    written. *)
Example reference_run_sends_what_it_calls :
  @sent_requests cpython (@run_trace cpython Api.handle)
  = map fst (http_log (@run_trace cpython Api.handle)).
Proof. vm_compute. reflexivity. Qed.

(** A 500 on the creation of the discovery profile: [fail] and exit 1. *)
Example discovery_refused :
  @run_outcome cpython (failing_at 2) = SystemExit 1 /\
  last_event (@run_trace cpython (failing_at 2))
  = Some (Print "[TEST] FAILED: Create Discovery failed: Internal Server Error").
Proof. split; vm_compute; reflexivity. Qed.

(** A login answered by 200 and a JSON list: the subscript raises inside
    the [try], the handler calls [fail]. *)
Example login_body_is_a_list :
  let srv := answering 0 (Ok (mkResponse 200 "[]" (Parsed (PList [])))) Api.handle in
  @run_outcome cpython srv = SystemExit 1 /\
  printed_lines (@run_trace cpython srv)
  = ["[TEST] Logging in...";
     "[TEST] FAILED: Login exception: list indices must be integers or slices, not str"].
Proof. split; vm_compute; reflexivity. Qed.

(** A credential created with 201 and a body without id: the [KeyError]
    is not caught; the interpreter stops with status 1 and no FAILED line. *)
Example created_without_id :
  let srv := answering 1 (Ok (mkResponse 201 "{}" (Parsed (PDict [])))) Api.handle in
  @run_outcome cpython srv = Raised (KeyError "id") /\
  exit_status (@run_outcome cpython srv) = 1 /\
  last_event (@run_trace cpython srv) = Some ReadJson.
Proof. repeat split; vm_compute; reflexivity. Qed.

(** A 500 whose text an ASCII stdout cannot encode, on the update of the
    credential: [print] raises inside [fail], before [sys.exit]; nothing
    is written of the FAILED line. *)
Example failure_that_cannot_be_printed :
  @run_outcome cpython (garbled_at 4)
  = Raised (UnicodeEncodeError ("[TEST] FAILED: Update Credential failed: " ++ cafe)) /\
  CPython.str_exc (UnicodeEncodeError ("[TEST] FAILED: Update Credential failed: " ++ cafe))
  = "'ascii' codec can't encode character '\xe9' in position 44: ordinal not in range(128)" /\
  existsb is_failed_line (@run_trace cpython (garbled_at 4)) = false /\
  last_event (@run_trace cpython (garbled_at 4)) = Some ReadText.
Proof. repeat split; vm_compute; reflexivity. Qed.

(** The same at the login, inside the [try]: the handler reports the
    [UnicodeEncodeError], whose text is ASCII. *)
Example login_failure_that_cannot_be_printed :
  @run_outcome cpython (garbled_at 0) = SystemExit 1 /\
  printed_lines (@run_trace cpython (garbled_at 0))
  = ["[TEST] Logging in...";
     "[TEST] FAILED: Login exception: 'ascii' codec can't encode character '\xe9' in position 32: ordinal not in range(128)"].
Proof. split; vm_compute; reflexivity. Qed.

(** A monitor id that is a relative path: the URL the script writes is
    under /monitors/, the one [requests] sends is not. *)
Example dotted_id_leaves_monitors :
  let srv := dotted_id_at 3 "../credentials/1" in
  map endpoint_of (skipn 5 (http_log (@run_trace cpython srv)))
  = [(DELETE, "https://localhost:8080/api/v1/monitors/../credentials/1")] /\
  map url (skipn 5 (@sent_requests cpython (@run_trace cpython srv)))
  = ["https://localhost:8080/api/v1/credentials/1"].
Proof. split; vm_compute; reflexivity. Qed.

(** The reference server refuses what the API refuses: a request without
    the token, a discovery profile for a credential that does not exist, a
    monitor that does not exist. *)
Example reference_server_refuses :
  Api.handle [login_request]
             (mkRequest POST (BASE_URL ++ "/credentials") (Some cred_payload) None false)
  = Ok Api.unauthorized /\
  Api.handle [login_request]
             (mkRequest POST (BASE_URL ++ "/discoveries") (Some (disc_payload (PInt 7)))
                        (Some [("Authorization", "Bearer s3cr3t")]) false)
  = Ok Api.bad_request /\
  Api.handle [login_request]
             (mkRequest DELETE (BASE_URL ++ "/monitors/3") None
                        (Some [("Authorization", "Bearer s3cr3t")]) false)
  = Ok Api.not_found.
Proof. repeat split; vm_compute; reflexivity. Qed.

(** An id with a newline in it: one call of [print], two lines on stdout,
    the second without the tag. *)
Example id_with_a_newline :
  firstn 4 (printed_lines (@run_trace cpython (two_line_id_at 1)))
  = ["[TEST] Logging in..."; "[TEST] Login successful.";
     "[TEST] Creating Credential Profile...";
     "[TEST] Credential created: " ++ two_line_id] /\
  firstn 5 (stdout_lines (@run_trace cpython (two_line_id_at 1)))
  = ["[TEST] Logging in..."; "[TEST] Login successful.";
     "[TEST] Creating Credential Profile...";
     "[TEST] Credential created: 7"; "untagged"].
Proof. split; vm_compute; reflexivity. Qed.

(** ** The claims *)

(** C1. The login and the three creations are sent in the order login,
    credentials, discoveries, monitors.  The POST to /credentials names no
    other record; the POST to /discoveries carries a credential_profile_id,
    and the POST to /monitors carries a credential_profile_id and a
    discovery_profile_id: each of these values is the id read from a reply
    with status 201 to an earlier POST, in the same run, to the endpoint
    that creates such records.  The same holds of every request body that
    gives a value to one of the two fields. *)
Theorem references_were_created_earlier {RT : PyRuntime} (srv : server) :
  (exists n, map endpoint_of (firstn 4 (http_log (run_trace srv)))
             = firstn n creation_order) /\
  (forall i req reply key path id,
      nth_error (http_log (run_trace srv)) i = Some (req, reply) ->
      In (key, path) reference_fields ->
      field_of req key = Some id ->
      created_by path (firstn i (http_log (run_trace srv))) id) /\
  (forall i req reply,
      nth_error (http_log (run_trace srv)) i = Some (req, reply) ->
      method req = POST -> url req = BASE_URL ++ "/credentials" ->
      field_of req "credential_profile_id" = None /\
      field_of req "discovery_profile_id" = None) /\
  (forall i req reply,
      nth_error (http_log (run_trace srv)) i = Some (req, reply) ->
      method req = POST -> url req = BASE_URL ++ "/discoveries" ->
      exists cred_id,
        field_of req "credential_profile_id" = Some cred_id /\
        created_by "/credentials" (firstn i (http_log (run_trace srv))) cred_id) /\
  (forall i req reply,
      nth_error (http_log (run_trace srv)) i = Some (req, reply) ->
      method req = POST -> url req = BASE_URL ++ "/monitors" ->
      exists cred_id disc_id,
        field_of req "credential_profile_id" = Some cred_id /\
        field_of req "discovery_profile_id" = Some disc_id /\
        created_by "/credentials" (firstn i (http_log (run_trace srv))) cred_id /\
        created_by "/discoveries" (firstn i (http_log (run_trace srv))) disc_id).
Proof.
  run_cases srv.
  all: split;
    [ first [ exists 1%nat; reflexivity | exists 2%nat; reflexivity
            | exists 3%nat; reflexivity | exists 4%nat; reflexivity ] |].
  all: split;
    [ intros i req reply key path id Hnth Hin Hfield;
      nth_cases i Hnth; injection Hnth as <- <-;
      destruct Hin as [Hin | [Hin | []]]; injection Hin as <- <-;
      vm_compute in Hfield; try discriminate Hfield; injection Hfield as <-;
      cbn [firstn];
      first [ solve [created_at 1%nat] | solve [created_at 2%nat] ] |].
  all: split;
    [ intros i req reply Hnth Hpost Hurl;
      nth_cases i Hnth; injection Hnth as <- <-; try discriminate Hpost;
      try (vm_compute in Hurl; discriminate Hurl);
      split; reflexivity |].
  all: split;
    [ intros i req reply Hnth Hpost Hurl;
      nth_cases i Hnth; injection Hnth as <- <-; try discriminate Hpost;
      try (vm_compute in Hurl; discriminate Hurl);
      match goal with
      | |- exists _, _ =>
          eexists; split; [reflexivity | cbn [firstn]; solve [created_at 1%nat]]
      end |].
  all: intros i req reply Hnth Hpost Hurl;
    nth_cases i Hnth; injection Hnth as <- <-; try discriminate Hpost;
    try (vm_compute in Hurl; discriminate Hurl);
    match goal with
    | |- exists _, _ =>
        do 2 eexists; split; [reflexivity |]; split; [reflexivity |];
        cbn [firstn]; split; [solve [created_at 1%nat] | solve [created_at 2%nat]]
    end.
Qed.

Lemma references_were_created_earlier_witness :
  (exists req reply,
      nth_error (http_log (@run_trace cpython Api.handle)) 2 = Some (req, reply) /\
      method req = POST /\ url req = BASE_URL ++ "/discoveries" /\
      field_of req "credential_profile_id" = Some (PInt 1) /\
      created_by "/credentials"
        (firstn 2 (http_log (@run_trace cpython Api.handle))) (PInt 1)) /\
  (exists req reply,
      nth_error (http_log (@run_trace cpython Api.handle)) 3 = Some (req, reply) /\
      In ("credential_profile_id", "/credentials") reference_fields /\
      field_of req "credential_profile_id" = Some (PInt 1) /\
      In ("discovery_profile_id", "/discoveries") reference_fields /\
      field_of req "discovery_profile_id" = Some (PInt 2) /\
      created_by "/credentials"
        (firstn 3 (http_log (@run_trace cpython Api.handle))) (PInt 1) /\
      created_by "/discoveries"
        (firstn 3 (http_log (@run_trace cpython Api.handle))) (PInt 2)).
Proof.
  split.
  - do 2 eexists.
    assert (Hnth : nth_error (http_log (@run_trace cpython Api.handle)) 2
                   = Some (mkRequest POST (BASE_URL ++ "/discoveries")
                             (Some (disc_payload (PInt 1)))
                             (Some [("Authorization", "Bearer s3cr3t")]) false,
                           Ok (Api.created_response 2)))
      by (vm_compute; reflexivity).
    split; [exact Hnth |]. split; [reflexivity |]. split; [reflexivity |].
    destruct (proj1 (proj2 (proj2 (proj2 (@references_were_created_earlier cpython Api.handle))))
                2%nat _ _ Hnth eq_refl eq_refl) as [cred_id [Hfield Hcreated]].
    vm_compute in Hfield. injection Hfield as <-.
    split; [reflexivity | exact Hcreated].
  - do 2 eexists.
    assert (Hnth : nth_error (http_log (@run_trace cpython Api.handle)) 3
                   = Some (mkRequest POST (BASE_URL ++ "/monitors")
                             (Some (mon_payload (PInt 1) (PInt 2)))
                             (Some [("Authorization", "Bearer s3cr3t")]) false,
                           Ok (Api.created_response 3)))
      by (vm_compute; reflexivity).
    assert (Hc : In ("credential_profile_id", "/credentials") reference_fields)
      by (left; reflexivity).
    assert (Hd : In ("discovery_profile_id", "/discoveries") reference_fields)
      by (right; left; reflexivity).
    split; [exact Hnth |]. split; [exact Hc |]. split; [reflexivity |].
    split; [exact Hd |]. split; [reflexivity |].
    split.
    + exact (proj1 (proj2 (@references_were_created_earlier cpython Api.handle))
                   3%nat _ _ _ _ (PInt 1) Hnth Hc eq_refl).
    + exact (proj1 (proj2 (@references_were_created_earlier cpython Api.handle))
                   3%nat _ _ _ _ (PInt 2) Hnth Hd eq_refl).
Defined.







(** C5. Every sleep of a run lasts 2 seconds and there are at most three;
    none happens before the first request or after a request that is not a
    propagating one.  After a propagating request, when the run goes on
    (to a next request, or to its normal end after the deletion), what lies
    between is a line printed, [time.sleep(2)], a line printed, preceded at
    most by the read of the reply's JSON: no other request or wait. *)
Theorem fixed_two_second_sleeps {RT : PyRuntime} (srv : server) :
  (exists n, (n <= 3)%nat /\ sleeps (run_trace srv) = repeat 2 n) /\
  sleeps (until_request (run_trace srv)) = [] /\
  (List.length (http_log (run_trace srv)) <= 6)%nat /\
  (forall i req reply,
      nth_error (http_log (run_trace srv)) i = Some (req, reply) ->
      (is_propagating req = false -> sleeps (gap_after i (run_trace srv)) = []) /\
      (is_propagating req = true ->
       nth_error (http_log (run_trace srv)) (S i) <> None \/
       run_outcome srv = Returned tt ->
       exists before line_done line_next,
         gap_after i (run_trace srv)
         = (before ++ [Print line_done; Sleep 2; Print line_next])%list /\
         (before = [] \/ before = [ReadJson]))).
Proof.
  run_cases srv.
  all: split;
    [ first [ exists 0%nat; split; [lia | reflexivity]
            | exists 1%nat; split; [lia | reflexivity]
            | exists 2%nat; split; [lia | reflexivity]
            | exists 3%nat; split; [lia | reflexivity] ] |].
  all: split; [reflexivity |].
  all: split; [cbn [List.length]; lia |].
  all: intros i req reply Hnth.
  all: nth_cases i Hnth; inversion Hnth; subst.
  all: split; [intros Hp; first [reflexivity | vm_compute in Hp; discriminate Hp] |].
  all: intros Hp Hnext.
  all: try (vm_compute in Hp; discriminate Hp).
  all: cbn [nth_error] in Hnext.
  all: try (exfalso; destruct Hnext as [Hnext | Hnext]; [apply Hnext; reflexivity | discriminate Hnext]).
  all: cbn [gap_after events_after until_request].
  all: first [ exists []; do 2 eexists; split; [reflexivity | left; reflexivity]
             | exists [ReadJson]; do 2 eexists; split; [reflexivity | right; reflexivity] ].
Qed.

Lemma fixed_two_second_sleeps_witness :
  exists req reply,
    nth_error (http_log (@run_trace cpython Api.handle)) 3 = Some (req, reply) /\
    is_propagating req = true /\
    nth_error (http_log (@run_trace cpython Api.handle)) 4 <> None /\
    exists before line_done line_next,
      gap_after 3 (@run_trace cpython Api.handle)
      = (before ++ [Print line_done; Sleep 2; Print line_next])%list /\
      (before = [] \/ before = [ReadJson]).
Proof.
  do 2 eexists.
  assert (Hnth : nth_error (http_log (@run_trace cpython Api.handle)) 3
                 = Some (mkRequest POST (BASE_URL ++ "/monitors")
                           (Some (mon_payload (PInt 1) (PInt 2)))
                           (Some [("Authorization", "Bearer s3cr3t")]) false,
                         Ok (Api.created_response 3)))
    by (vm_compute; reflexivity).
  assert (Hnext : nth_error (http_log (@run_trace cpython Api.handle)) 4 <> None)
    by (vm_compute; discriminate).
  split; [exact Hnth |]. split; [reflexivity |]. split; [exact Hnext |].
  exact (proj2 (proj2 (proj2 (proj2 (@fixed_two_second_sleeps cpython Api.handle)))
                 3%nat _ _ Hnth) eq_refl (or_introl Hnext)).
Defined.

(** C6. Whenever a request body carries both a credential_profile_id and a
    discovery_profile_id (the monitor creation does), the discovery profile
    it names was created earlier in the run by a request whose own
    credential_profile_id is that same value: the monitor's credential and
    the one reached through its discovery profile coincide. *)
Theorem monitor_and_discovery_share_credential {RT : PyRuntime} (srv : server)
    (i : nat) (req : request) (reply : result response) (cred disc : pyval) :
  nth_error (http_log (run_trace srv)) i = Some (req, reply) ->
  field_of req "credential_profile_id" = Some cred ->
  field_of req "discovery_profile_id" = Some disc ->
  (method req = POST /\ url req = BASE_URL ++ "/monitors") /\
  exists dreq dresp,
    In (dreq, Ok dresp) (firstn i (http_log (run_trace srv))) /\
    method dreq = POST /\ url dreq = BASE_URL ++ "/discoveries" /\
    status_code dresp = 201 /\
    returned_field "id" (Ok dresp) = Some disc /\
    field_of dreq "credential_profile_id" = Some cred.
Proof.
  revert i req reply cred disc. run_cases srv.
  all: intros i req reply cred disc Hnth Hcred Hdisc.
  all: nth_cases i Hnth; injection Hnth as <- <-.
  all: vm_compute in Hcred, Hdisc; try discriminate Hdisc.
  all: injection Hcred as <-; injection Hdisc as <-.
  all: split; [split; reflexivity |].
  all: cbn [firstn]; do 2 eexists; split; [in_log_at 2%nat |].
  all: repeat split; eauto with flow.
Qed.

Lemma monitor_and_discovery_share_credential_witness :
  exists req reply,
    nth_error (http_log (@run_trace cpython Api.handle)) 3 = Some (req, reply) /\
    field_of req "credential_profile_id" = Some (PInt 1) /\
    field_of req "discovery_profile_id" = Some (PInt 2) /\
    exists dreq dresp,
      In (dreq, Ok dresp) (firstn 3 (http_log (@run_trace cpython Api.handle))) /\
      method dreq = POST /\ url dreq = BASE_URL ++ "/discoveries" /\
      status_code dresp = 201 /\
      returned_field "id" (Ok dresp) = Some (PInt 2) /\
      field_of dreq "credential_profile_id" = Some (PInt 1).
Proof.
  do 2 eexists.
  assert (Hnth : nth_error (http_log (@run_trace cpython Api.handle)) 3
                 = Some (mkRequest POST (BASE_URL ++ "/monitors")
                           (Some (mon_payload (PInt 1) (PInt 2)))
                           (Some [("Authorization", "Bearer s3cr3t")]) false,
                         Ok (Api.created_response 3)))
    by (vm_compute; reflexivity).
  split; [exact Hnth |].
  split; [reflexivity |]. split; [reflexivity |].
  exact (proj2 (@monitor_and_discovery_share_credential cpython Api.handle 3%nat _ _
                  (PInt 1) (PInt 2) Hnth eq_refl eq_refl)).
Defined.

(** C7. The login request carries no headers; every later request of the
    run carries exactly the header Authorization: Bearer <token>, with the
    token read from the login reply, whose status was 200. *)
Theorem bearer_token_on_every_later_request {RT : PyRuntime} (srv : server) :
  exists login_reply later,
    http_log (run_trace srv) = (login_request, login_reply) :: later /\
    headers login_request = None /\
    Forall (fun x => exists token,
                login_token login_reply = Some token /\
                headers (fst x) = Some [("Authorization", "Bearer " ++ py_str token)])
           later.
Proof.
  run_cases srv.
  all: do 2 eexists; split; [reflexivity | split; [reflexivity |]].
  all: repeat (constructor; [eexists; split; [eauto with flow | reflexivity] |]).
  all: constructor.
Qed.






(** C10. Every request of every run is sent with [verify=False], and the
    first thing a run does, before any request, is to switch off urllib3's
    InsecureRequestWarning: no run validates the server's certificate. *)
Theorem no_certificate_validation {RT : PyRuntime} (srv : server) :
  Forall (fun x => verify (fst x) = false) (http_log (run_trace srv)) /\
  hd_error (run_trace srv) = Some (DisableWarnings "InsecureRequestWarning").
Proof.
  run_cases srv; (split; [repeat constructor | reflexivity]).
Qed.

(** ** Further properties of the script *)









(** X5. [fail] ends the run: the exit status of a run is 0 or 1, the only
    code passed to [sys.exit] is 1, and a run ends by [sys.exit(1)] exactly
    when its last event is a FAILED line.  No run prints more than one
    FAILED line, and one that is printed is the last event. *)
Theorem fail_is_final {RT : PyRuntime} (srv : server) :
  (exit_status (run_outcome srv) = 0 \/ exit_status (run_outcome srv) = 1) /\
  (forall code, run_outcome srv = SystemExit code -> code = 1) /\
  (run_outcome srv = SystemExit 1 <->
   exists msg, last_event (run_trace srv) = Some (failed_line msg)) /\
  (filter is_failed_line (run_trace srv) = [] \/
   exists msg, filter is_failed_line (run_trace srv) = [failed_line msg] /\
               last_event (run_trace srv) = Some (failed_line msg)).
Proof.
  run_cases srv.
  all: split; [first [left; reflexivity | right; reflexivity] |].
  all: split; [intros code Hc; first [discriminate Hc | inversion Hc; reflexivity] |].
  all: split;
    [ split;
      [ intros Hout; first [discriminate Hout | ends_with_failure]
      | intros [msg Hlast]; first [reflexivity | not_a_failed_line Hlast] ]
    | first [ left; vm_compute; reflexivity
            | right; eexists; split; [vm_compute; reflexivity | vm_compute; reflexivity] ] ].
Qed.

Lemma fail_is_final_witness :
  @run_outcome cpython (failing_at 2) = SystemExit 1 /\
  exists msg, last_event (@run_trace cpython (failing_at 2)) = Some (failed_line msg).
Proof.
  assert (Hout : @run_outcome cpython (failing_at 2) = SystemExit 1)
    by (vm_compute; reflexivity).
  split; [exact Hout |].
  exact (proj1 (proj1 (proj2 (proj2 (@fail_is_final cpython (failing_at 2))))) Hout).
Defined.



(** X7. [requests.delete] is called only once all is well: a DELETE is the
    sixth request of its run, it is made exactly when the first five
    requests got 200, 201, 201, 201, 200, and the URL the script gives it
    starts with BASE_URL/monitors/.  This is the URL as the script writes
    it: [requests] removes dot segments before it sends, so for a monitor
    id such as ../credentials/1 the request goes to another path (see
    [dotted_id_leaves_monitors]). *)
Theorem delete_only_after_five_passed {RT : PyRuntime} (srv : server) :
  (forall i req reply,
      nth_error (http_log (run_trace srv)) i = Some (req, reply) ->
      method req = DELETE ->
      i = 5%nat /\
      firstn 5 (statuses (run_trace srv)) = map Some (firstn 5 expected_statuses) /\
      exists suffix, url req = BASE_URL ++ "/monitors/" ++ suffix) /\
  (firstn 5 (statuses (run_trace srv)) = map Some (firstn 5 expected_statuses) ->
   exists req reply,
     nth_error (http_log (run_trace srv)) 5 = Some (req, reply) /\ method req = DELETE).
Proof.
  run_cases srv.
  all: cbn [firstn map expected_statuses].
  all: split;
    [ intros i req reply Hnth Hdel;
      nth_cases i Hnth; injection Hnth as <- <-; try discriminate Hdel;
      match goal with
      | |- _ /\ _ =>
          split; [reflexivity |]; split; [congruence | eexists; reflexivity]
      end
    | intros Hst; first [congruence | do 2 eexists; split; reflexivity] ].
Qed.

Lemma delete_only_after_five_passed_witness :
  exists req reply,
    nth_error (http_log (@run_trace cpython Api.handle)) 5 = Some (req, reply) /\
    method req = DELETE /\
    firstn 5 (statuses (@run_trace cpython Api.handle))
    = map Some (firstn 5 expected_statuses) /\
    exists suffix, url req = BASE_URL ++ "/monitors/" ++ suffix.
Proof.
  do 2 eexists.
  assert (Hdel : nth_error (http_log (@run_trace cpython Api.handle)) 5
                 = Some (mkRequest DELETE (BASE_URL ++ "/monitors/3") None
                           (Some [("Authorization", "Bearer s3cr3t")]) false,
                         Ok Api.deleted_response))
    by (vm_compute; reflexivity).
  split; [exact Hdel |]. split; [reflexivity |].
  exact (proj2 (proj1 (@delete_only_after_five_passed cpython Api.handle)
                  5%nat _ _ Hdel eq_refl)).
Defined.

(** X8. Every request is announced: the event right before each request of
    a run is the [log] line of its step, so the last announcement printed
    names the step at which a run stopped. *)
Theorem every_request_is_announced {RT : PyRuntime} (srv : server) :
  announced None (run_trace srv)
  = map Some (firstn (List.length (http_log (run_trace srv))) announcements).
Proof.
  run_cases srv.
  all: reflexivity.
Qed.

(** X9. What a run prints is an initial part of the transcript of a run
    where all passes, written with the ids the creations returned,
    followed by at most one FAILED line; no FAILED line follows the full
    transcript. *)
Theorem output_follows_the_transcript {RT : PyRuntime} (srv : server) :
  exists k,
    let expected :=
      firstn k (transcript (returned_id 1 (run_trace srv))
                           (returned_id 2 (run_trace srv))
                           (returned_id 3 (run_trace srv))) in
    (printed_lines (run_trace srv) = expected /\
     filter is_failed_line (run_trace srv) = []) \/
    (exists msg,
        printed_lines (run_trace srv)
        = (expected ++ [("[TEST] FAILED: " ++ msg)%string])%list /\
        (k < 13)%nat).
Proof.
  run_cases srv.
  all: unfold returned_id, returned_field; cbn [printed_lines http_log nth_error];
       use_replies.
  all: first [ prefix_of_length 13%nat | prefix_of_length 12%nat
             | prefix_of_length 11%nat | prefix_of_length 10%nat
             | prefix_of_length 9%nat | prefix_of_length 8%nat
             | prefix_of_length 7%nat | prefix_of_length 6%nat
             | prefix_of_length 5%nat | prefix_of_length 4%nat
             | prefix_of_length 3%nat | prefix_of_length 2%nat
             | prefix_of_length 1%nat ].
Qed.
